(** * Birdwatch: the seat watcher ([src/middleware/watcher.ts])

    A shallow embedding of the [Watcher] class: the periodic [scan] that
    fetches the course catalogue, matches it against the [watchers] table,
    mails the subscribers and retires the matched rows, together with
    [register] and [purge], which mutate the same table.

    Numbers are [Z] (CRNs, capacities and seat counts are integers in the
    catalogue), strings are [string], the [watchers] table (whose [crn]
    column is the conflict target of the upsert, hence unique) and the
    JavaScript [Map] built from it are [gmap Z (list string)], and the
    [emails] column, a Postgres array, is a [list string]: order and
    duplicates are kept.

    Asynchrony is sequentialised: every promise is a state transformer
    returning how it settled.  The store, the mail transport and the
    console are part of the state; the network and the outcome of each
    mail delivery are read from an environment. *)

From stdpp Require Import gmap strings list fin_maps pretty.

Local Open Scope Z_scope.

(** ** Data model *)

(** [interface WatcherRow { crn: number, emails: string[] }] *)
Module WatcherRow.
Record t : Type := Build { crn : Z; emails : list string }.
End WatcherRow.

(** [interface Section { sec: string, cap: number, rem: number, crn: number }] *)
Record CourseSection : Type := {
  sec : string;
  cap : Z;
  rem : Z;
  crn : Z
}.

(** [interface Course { crse, id, sections, title }] *)
Record Course : Type := {
  crse : string;
  id : string;
  sections : list CourseSection;
  title : string
}.

(** [interface Department { code, courses }] *)
Record Department : Type := {
  code : string;
  courses : list Course
}.

(** One entry of the GitHub directory listing of [semester_data]; only
    its [path] is read. *)
Record Semester : Type := { path : string }.

(** The argument of [transporter.sendMail]. *)
Record Sender : Type := { name : string; address : string }.

Record Mail : Type := {
  to : string;
  from : Sender;
  subject : string;
  text : string
}.

(** [console.info], [console.log] and [console.error]. *)
Inductive Line : Type :=
  | Info (msg : string)
  | Log (msg : string)
  | Error (msg : string).

(** What a promise can reject with: a failed [axios.get], the [TypeError]
    of reading a property of [undefined], and [Error('not found')]. *)
Inductive Exn : Type :=
  | AxiosError (url : string)
  | TypeError (msg : string)
  | Err (msg : string).

Inductive Settled (A : Type) : Type :=
  | Fulfilled (a : A)
  | Rejected (e : Exn).
Arguments Fulfilled {A} a.
Arguments Rejected {A} e.

(** The world outside the process: what the two GitHub endpoints answer
    ([None] is a failed request), the configured [MAILER_USER], and the
    error, if any, that the transport hands to the [sendMail] callback. *)
Record Env : Type := {
  listing : string → option (list Semester);
  cdn : string → option (list Department);
  MAILER_USER : string;
  delivery : Mail → option string
}.

(** The [Watcher] instance ([courseData], [initialized]) and what it acts
    on: the [watchers] table behind [db], the mails handed to the
    transporter, and the console. *)
Record State : Type := {
  courseData : option (list Department);
  initialized : bool;
  watchers : gmap Z (list string);
  outbox : list Mail;
  console : list Line
}.

Definition set_courseData (d : list Department) (w : State) : State :=
  {| courseData := Some d; initialized := initialized w;
     watchers := watchers w; outbox := outbox w; console := console w |}.

Definition set_initialized (b : bool) (w : State) : State :=
  {| courseData := courseData w; initialized := b;
     watchers := watchers w; outbox := outbox w; console := console w |}.

Definition set_watchers (t : gmap Z (list string)) (w : State) : State :=
  {| courseData := courseData w; initialized := initialized w;
     watchers := t; outbox := outbox w; console := console w |}.

Definition sendMail (m : Mail) (w : State) : State :=
  {| courseData := courseData w; initialized := initialized w;
     watchers := watchers w; outbox := outbox w ++ [m]; console := console w |}.

Definition print (l : Line) (w : State) : State :=
  {| courseData := courseData w; initialized := initialized w;
     watchers := watchers w; outbox := outbox w; console := console w ++ [l] |}.

(** ** Promises *)

Definition Promise (A : Type) : Type := State → Settled A * State.

Definition resolve {A} (a : A) : Promise A := λ w, (Fulfilled a, w).
Definition reject {A} (e : Exn) : Promise A := λ w, (Rejected e, w).

(** [p.then(k)]: a rejection skips the continuation. *)
Definition andThen {A B} (p : Promise A) (k : A → Promise B) : Promise B :=
  λ w, match p w with
       | (Fulfilled a, w') => k a w'
       | (Rejected e, w') => (Rejected e, w')
       end.

(** A step that only acts on the state and cannot fail. *)
Definition effect (f : State → State) : Promise unit := λ w, (Fulfilled (), f w).

Declare Scope promise_scope.
Delimit Scope promise_scope with promise.
Notation "'await' x := p 'in' k" := (andThen p (λ x, k))
  (at level 10, x name, p at level 100, k at level 200) : promise_scope.
Notation "p >> k" := (andThen p (λ _, k))
  (at level 100, k at level 200, right associativity) : promise_scope.
Local Open Scope promise_scope.

(** ** The [watchers] table *)

(** [db('watchers').select(['crn', 'emails'])] *)
Definition select (t : gmap Z (list string)) : list WatcherRow.t :=
  (λ kv, WatcherRow.Build kv.1 kv.2) <$> map_to_list t.

(** [insert({crn, emails: [email]}).onConflict('crn')
      .merge({emails: raw('watchers.emails || EXCLUDED.emails')})]:
    a fresh row, or the array concatenation of the stored emails and the
    proposed ones. *)
Definition upsert (c : Z) (email : string) (t : gmap Z (list string))
  : gmap Z (list string) :=
  match t !! c with
  | Some es => <[c := es ++ [email]]> t
  | None => <[c := [email]]> t
  end.

(** [ARRAY_REMOVE(emails, email)]: every element equal to [email] goes. *)
Definition ARRAY_REMOVE (es : list string) (email : string) : list string :=
  filter (λ e, e ≠ email) es.

(** [update({emails: raw('ARRAY_REMOVE(emails, ?)', [email])})], with
    [.where({crn})] when [scope] is given.  Returns the number of rows the
    statement updated with the new table. *)
Definition update_remove (email : string) (scope : option Z)
    (t : gmap Z (list string)) : nat * gmap Z (list string) :=
  match scope with
  | Some c =>
      (if t !! c is Some _ then 1%nat else 0%nat, alter (λ es, ARRAY_REMOVE es email) c t)
  | None =>
      (size t, (λ es, ARRAY_REMOVE es email) <$> t)
  end.

(** ** Constants and string rendering *)

Definition GITHUB_API : string := "https://api.github.com".
Definition GITHUB_CDN : string := "https://raw.githubusercontent.com".

(** [Number.isSafeInteger]: the integers a JavaScript number holds
    exactly, those of absolute value below 2^53. *)
Definition isSafeInteger (n : Z) : Prop := - 2 ^ 53 < n < 2 ^ 53.

(** [`${n}`] for an integer [n]: its decimal digits, with a leading minus
    sign when negative.  This is what JavaScript prints for a safe
    integer; beyond 2^53 a number no longer holds every integer, and from
    10^21 it is printed with an exponent, so what is said about rendered
    numbers is said for safe integers only. *)
Definition show (n : Z) : string := pretty n.

(** [Array.prototype.join] *)
Definition join (sep : string) (l : list string) : string := String.concat sep l.

(** ** [Watcher.scan] *)

(** Lines 82-83: the listing of [semester_data], then [courses.json] of
    its last entry.  [semesters[semesters.length - 1]] is [undefined] on an
    empty listing and reading [.path] of it throws inside the [then]
    callback, which rejects the chain. *)
Definition fetch (env : Env) : Settled (list Department) :=
  let url := GITHUB_API +:+ "/repos/quacs/quacs-data/contents/semester_data" in
  match listing env url with
  | None => Rejected (AxiosError url)
  | Some semesters =>
      match last semesters with
      | None => Rejected (TypeError "Cannot read properties of undefined (reading 'path')")
      | Some latest =>
          let url' := GITHUB_CDN +:+ "/quacs/quacs-data/master/" +:+ path latest +:+ "/courses.json" in
          match cdn env url' with
          | None => Rejected (AxiosError url')
          | Some departments => Fulfilled departments
          end
      end
  end.

(** Lines 87-88: [listeners.set(listener.crn, listener.emails)] for each row. *)
Definition listenerIndex (rows : list WatcherRow.t) : gmap Z (list string) :=
  foldl (λ listeners listener,
           <[WatcherRow.crn listener := WatcherRow.emails listener]> listeners)
        ∅ rows.

(** Line 93: [listeners.has(section.crn) && section.rem > 0]. *)
Definition matched (listeners : gmap Z (list string)) (section : CourseSection) : bool :=
  bool_decide (is_Some (listeners !! crn section)) && bool_decide (0 < rem section).

(** Lines 90-119: the three nested [for ... of] loops, running [body] on
    every section that passes the test of line 93. *)
Definition forMatches {S : Type} (body : Course → CourseSection → S → S)
    (listeners : gmap Z (list string)) (departments : list Department) (s : S) : S :=
  foldl (λ s department,
    foldl (λ s course,
      foldl (λ s section,
               if matched listeners section then body course section s else s)
            s (sections course))
      s (courses department))
    s departments.

(** Lines 94-105: the message for one matched section. *)
Definition recipientsOf (listeners : gmap Z (list string)) (section : CourseSection) : string :=
  default "" (join ", " <$> listeners !! crn section).

Definition mailFor (env : Env) (listeners : gmap Z (list string))
    (course : Course) (section : CourseSection) : Mail :=
  {| to := recipientsOf listeners section;
     from := {| name := "QuACS Birdwatch"; address := MAILER_USER env |};
     subject := "Course [" +:+ title course +:+ "] section [" +:+ sec section
                +:+ "] has a seat available!";
     text := show (rem section) +:+ "/" +:+ show (cap section) +:+ " seats available" |}.

(** Lines 94-115: log, hand the mail to the transporter (whose callback
    logs a delivery error and nothing else), and issue the row's deletion
    without awaiting either. *)
Definition notifyAndRetire (env : Env) (listeners : gmap Z (list string))
    (course : Course) (section : CourseSection) (w : State) : State :=
  let m := mailFor env listeners course section in
  let w := print (Log ("Emailing [" +:+ recipientsOf listeners section +:+ "]")) w in
  let w := sendMail m w in
  let w := match delivery env m with
           | Some err => print (Error err) w
           | None => w
           end in
  let w := set_watchers (delete (crn section) (watchers w)) w in
  print (Log ("Deleted " +:+ show (crn section))) w.

Definition scan (env : Env) : Promise unit :=
  effect (print (Info "Beginning scan...")) >>
  await departments := (λ w, (fetch env, w)) in
  effect (set_courseData departments) >>
  await rows := (λ w, (Fulfilled (select (watchers w)), w)) in
  let listeners := listenerIndex rows in
  effect (forMatches (notifyAndRetire env listeners) listeners departments).

(** ** [Watcher.register] *)

(** Lines 133-147: the search with its three [break]s. *)
Definition found (departments : list Department) (c : Z) : bool :=
  existsb (λ department,
    existsb (λ course,
      existsb (λ section, bool_decide (crn section = c)) (sections course))
      (courses department))
    departments.

(** Lines 128-161.  The scan that a registration triggers when nothing is
    cached issues its deletions without awaiting them; here they have run
    by the time the scan settles, so on that path the order of the upsert
    relative to those deletions is the one order this model has. *)
Definition register (env : Env) (c : Z) (email : string) : Promise unit :=
  (λ w, match courseData w with
        | None => scan env w
        | Some _ => (Fulfilled (), w)
        end) >>
  await departments := (λ w, match courseData w with
                             | Some d => (Fulfilled d, w)
                             | None => (Rejected (TypeError "undefined is not iterable"), w)
                             end) in
  if found departments c then
    effect (λ w, set_watchers (upsert c email (watchers w)) w) >>
    effect (print (Log ("added " +:+ email +:+ " to " +:+ show c)))
  else reject (Err "not found").

(** ** [Watcher.purge] *)

(** [if (crn)]: a number is truthy unless it is zero. *)
Definition truthy (c : option Z) : bool :=
  match c with
  | Some n => bool_decide (n ≠ 0)
  | None => false
  end.

Definition purge (email : string) (c : option Z) : Promise unit :=
  await num := (λ w, let '(n, t) := update_remove email (if truthy c then c else None) (watchers w) in
                     (Fulfilled n, set_watchers t w)) in
  effect (print (Log ("removed " +:+ email +:+ " from " +:+
                      match c with
                      | Some n => show n
                      | None => pretty num +:+ " CRNs"
                      end))).

(** ** [Watcher.init] *)

(** [watch()] only installs the half-hourly timer; each tick is a [scan]. *)
Definition init (env : Env) : Promise unit :=
  λ w, if initialized w then (Fulfilled (), w)
       else scan env (set_initialized true w).

(** ** Reading the loops as one traversal *)

(** The snapshot in traversal order, department by department, course by
    course, section by section; each section travels with its course. *)
Definition traversal (departments : list Department) : list (Course * CourseSection) :=
  department ← departments;
  course ← courses department;
  (λ section, (course, section)) <$> sections course.

(** The sections on which the loops of [scan] run their body, in the order
    in which they run it. *)
Definition matches (listeners : gmap Z (list string)) (departments : list Department)
  : list (Course * CourseSection) :=
  forMatches (λ course section acc, acc ++ [(course, section)]) listeners departments [].

(** The subscribers stored for a section identifier (none without a row). *)
Definition subscribers (w : State) (c : Z) : list string :=
  default [] (watchers w !! c).

(** How many times [email] occurs among them. *)
Definition occurrences (email : string) (es : list string) : nat :=
  length (filter (λ e, e = email) es).

(** The same world with another mail transport. *)
Definition with_delivery (d : Mail → option string) (env : Env) : Env :=
  {| listing := listing env; cdn := cdn env;
     MAILER_USER := MAILER_USER env; delivery := d |}.

(** The mails a scan started in [w] hands to the transporter. *)
Definition sent (env : Env) (w : State) : list Mail :=
  drop (length (outbox w)) (outbox (scan env w).2).

(** The console lines a scan started in [w] prints. *)
Definition printed (env : Env) (w : State) : list Line :=
  drop (length (console w)) (console (scan env w).2).

(** The number of times the loops of a scan started in [w] run their body
    (one [sendMail] each) on a section with identifier [k]. *)
Definition attempts (env : Env) (w : State) (k : Z) : nat :=
  match fetch env with
  | Fulfilled departments =>
      length (filter (λ cs, crn cs.2 = k)
                     (matches (listenerIndex (select (watchers w))) departments))
  | Rejected _ => 0%nat
  end.

(** ** Sample worlds *)

Module Sample.

Definition section01 : CourseSection :=
  {| sec := "01"; cap := 30; rem := 2; crn := 1234 |}.

Definition dataStructures : Course :=
  {| crse := "1200"; id := "CSCI-1200"; sections := [section01];
     title := "Data Structures" |}.

Definition catalog : list Department :=
  [ {| code := "CSCI"; courses := [dataStructures] |} ].

(** The same identifier listed under two departments. *)
Definition crossListed : list Department :=
  [ {| code := "CSCI"; courses := [dataStructures] |};
    {| code := "ITWS";
       courses := [ {| crse := "1200"; id := "ITWS-1200";
                       sections := [ {| sec := "02"; cap := 10; rem := 1; crn := 1234 |} ];
                       title := "Data Structures" |} ] |} ].

Definition serving (semesters : option (list Semester)) (departments : list Department)
    (d : Mail → option string) : Env :=
  {| listing := λ url,
       if decide (url = "https://api.github.com/repos/quacs/quacs-data/contents/semester_data")
       then semesters else None;
     cdn := λ url,
       if decide (url = "https://raw.githubusercontent.com/quacs/quacs-data/master/semester_data/202409/courses.json")
       then Some departments else None;
     MAILER_USER := "birdwatch@example.org";
     delivery := d |}.

Definition releases : list Semester :=
  [ {| path := "semester_data/202405" |}; {| path := "semester_data/202409" |} ].

Definition online : Env := serving (Some releases) catalog (λ _, None).
Definition bouncing : Env := serving (Some releases) catalog (λ _, Some "ECONNREFUSED").
Definition offline : Env := serving None catalog (λ _, None).
Definition unreleased : Env := serving (Some []) catalog (λ _, None).
Definition twice : Env := serving (Some releases) crossListed (λ _, None).

Definition table (t : gmap Z (list string)) (snapshot : option (list Department)) : State :=
  {| courseData := snapshot; initialized := true; watchers := t;
     outbox := []; console := [] |}.

(** One subscriber waiting for a seat in section 1234. *)
Definition waiting : State := table {[ 1234 := ["u@rpi.edu"] ]} None.

(** A cached catalogue and an empty table. *)
Definition idle : State := table ∅ (Some catalog).

(** Two rows sharing a subscriber, one of them with identifier zero. *)
Definition shared : State :=
  table (<[ 0 := ["a@x.com"] ]> {[ 5 := ["a@x.com"; "b@x.com"] ]}) (Some catalog).

End Sample.

(** ** The process: [init], [watch] and the timer *)

(** The watcher together with the cron jobs installed by [watch], each
    recorded by its schedule. *)
Module Process.

Record t : Type := Build { self : State; jobs : list string }.

(** [cron.schedule('*/30 * * * *', () => void this.scan())] *)
Definition watch (p : t) : t :=
  {| self := self p; jobs := jobs p ++ ["*/30 * * * *"] |}.

(** Lines 64-71: the flag is raised before the first scan is awaited, and
    [watch] is reached only when that scan fulfils. *)
Definition init (env : Env) (p : t) : Settled unit * t :=
  if initialized (self p) then (Fulfilled (), p)
  else
    match scan env (set_initialized true (self p)) with
    | (Fulfilled _, w) => (Fulfilled (), watch {| self := w; jobs := jobs p |})
    | (Rejected e, w) => (Rejected e, {| self := w; jobs := jobs p |})
    end.

(** The body of the job, [void this.scan()]: however the scan settles,
    nothing is done with the outcome. *)
Definition tick (env : Env) (p : t) : t :=
  {| self := (scan env (self p)).2; jobs := jobs p |}.

End Process.

(** ** Further sample states *)

Module Scenario.

(** A process that has just been created: nothing cached, flag down, one
    subscriber in the table, no job. *)
Definition created : Process.t :=
  {| Process.self :=
       {| courseData := None; initialized := false;
          watchers := {[ 1234 := ["u@rpi.edu"] ]}; outbox := []; console := [] |};
     Process.jobs := [] |}.

(** A row left without subscribers, catalogue not yet cached. *)
Definition emptied : State := Sample.table {[ 1234 := [] ]} None.

(** A full section: same catalogue as [Sample.catalog] with no seat left. *)
Definition full : list Department :=
  [ {| code := "CSCI";
       courses := [ {| crse := "1200"; id := "CSCI-1200";
                       sections := [ {| sec := "01"; cap := 30; rem := 0; crn := 1234 |} ];
                       title := "Data Structures" |} ] |} ].

Definition soldOut : Env := Sample.serving (Some Sample.releases) full (λ _, None).

(** A subscriber registered twice on a cached section. *)
Definition doubled : State :=
  Sample.table {[ 1234 := ["u@rpi.edu"; "v@rpi.edu"; "u@rpi.edu"] ]} (Some Sample.catalog).

End Scenario.

(** ** Loop lemmas *)

Section loops.
Context {S : Type} (body : Course → CourseSection → S → S).
Context (listeners : gmap Z (list string)).

Let step (s : S) (cs : Course * CourseSection) : S := body cs.1 cs.2 s.
Let hit (cs : Course * CourseSection) : Prop := matched listeners cs.2.

Lemma sections_loop course (l : list CourseSection) s :
  foldl (λ s section, if matched listeners section then body course section s else s) s l
  = foldl step s (filter hit ((λ section, (course, section)) <$> l)).
Proof.
  revert s. induction l as [|x l IH]; intros s; [done|].
  cbn [foldl fmap list_fmap]. rewrite filter_cons.
  destruct (decide (hit (course, x))) as [H|H]; unfold hit in H; cbn [snd] in H.
  - destruct (matched listeners x); [|done]. cbn [foldl]. apply IH.
  - destruct (matched listeners x); [by destruct H|]. apply IH.
Qed.

Lemma courses_loop (l : list Course) s :
  foldl (λ s course,
           foldl (λ s section, if matched listeners section then body course section s else s)
                 s (sections course)) s l
  = foldl step s (filter hit (course ← l; (λ section, (course, section)) <$> sections course)).
Proof.
  revert s. induction l as [|c l IH]; intros s; [done|].
  cbn [foldl]. rewrite bind_cons, filter_app, foldl_app, <- sections_loop. apply IH.
Qed.

Lemma forMatches_traversal departments s :
  forMatches body listeners departments s
  = foldl step s (filter hit (traversal departments)).
Proof.
  unfold forMatches, traversal. revert s.
  induction departments as [|d l IH]; intros s; [done|].
  cbn [foldl]. rewrite bind_cons, filter_app, foldl_app, <- courses_loop. apply IH.
Qed.
End loops.

Lemma collect_append (acc l : list (Course * CourseSection)) :
  foldl (λ acc cs, acc ++ [(cs.1, cs.2)]) acc l = acc ++ l.
Proof.
  revert acc. induction l as [|[c x] l IH]; intros acc; cbn [foldl fst snd].
  - by rewrite app_nil_r.
  - rewrite IH. by rewrite <- app_assoc.
Qed.

Lemma matches_filter listeners departments :
  matches listeners departments
  = filter (λ cs, matched listeners cs.2) (traversal departments).
Proof. unfold matches. rewrite forMatches_traversal. apply collect_append. Qed.

(** ** The listener index *)

Lemma listenerIndex_union (rows : list WatcherRow.t) (m : gmap Z (list string)) :
  foldl (λ listeners listener,
           <[WatcherRow.crn listener := WatcherRow.emails listener]> listeners) m rows
  = list_to_map ((λ r, (WatcherRow.crn r, WatcherRow.emails r)) <$> reverse rows) ∪ m.
Proof.
  revert m. induction rows as [|r l IH]; intros m; cbn [foldl].
  - rewrite reverse_nil. cbn. by rewrite (left_id_L ∅ (∪)).
  - rewrite IH, reverse_cons, fmap_app, list_to_map_app. cbn [fmap list_fmap list_to_map foldr fst snd].
    rewrite insert_empty, <- (assoc_L (∪)). f_equal.
    apply insert_union_singleton_l.
Qed.

(** Built from a read of the table, the index is the table. *)
Lemma listenerIndex_select (t : gmap Z (list string)) :
  listenerIndex (select t) = t.
Proof.
  unfold listenerIndex. rewrite listenerIndex_union, (right_id_L ∅ (∪)). unfold select.
  rewrite <- fmap_reverse, <- list_fmap_compose.
  replace (_ <$> reverse (map_to_list t)) with (reverse (map_to_list t)).
  2:{ rewrite <- (list_fmap_id (reverse _)) at 1.
      apply list_fmap_ext. by intros ? [] ?. }
  apply map_eq. intros k.
  apply option_eq. intros v.
  rewrite <- elem_of_list_to_map
    by (rewrite fmap_reverse, reverse_Permutation; apply NoDup_fst_map_to_list).
  rewrite elem_of_reverse. apply elem_of_map_to_list.
Qed.

(** ** What a scan does to the state *)

Lemma scan_rejected env w e :
  fetch env = Rejected e →
  scan env w = (Rejected e, print (Info "Beginning scan...") w).
Proof. intros H. unfold scan, andThen, effect. by rewrite H. Qed.

Lemma scan_fulfilled env w departments :
  fetch env = Fulfilled departments →
  scan env w =
    (Fulfilled (),
     foldl (λ w' cs, notifyAndRetire env (watchers w) cs.1 cs.2 w')
           (set_courseData departments (print (Info "Beginning scan...") w))
           (matches (watchers w) departments)).
Proof.
  intros H. unfold scan, andThen, effect. rewrite H. cbn [watchers set_courseData print].
  by rewrite listenerIndex_select, forMatches_traversal, matches_filter.
Qed.

Section retire.
Context (env : Env) (listeners : gmap Z (list string)).

Let step (w : State) (cs : Course * CourseSection) : State :=
  notifyAndRetire env listeners cs.1 cs.2 w.

Lemma retire_watchers l w :
  watchers (foldl step w l) = foldl (λ t cs, delete (crn cs.2) t) (watchers w) l.
Proof.
  revert w. induction l as [|cs l IH]; intros w; [done|]. cbn [foldl]. rewrite IH.
  unfold step, notifyAndRetire. by destruct (delivery env _).
Qed.

Lemma retire_outbox l w :
  outbox (foldl step w l) = outbox w ++ ((λ cs, mailFor env listeners cs.1 cs.2) <$> l).
Proof.
  revert w. induction l as [|cs l IH]; intros w; cbn [foldl fmap list_fmap].
  - by rewrite app_nil_r.
  - rewrite IH. unfold step, notifyAndRetire.
    destruct (delivery env _); cbn; by rewrite <- app_assoc.
Qed.

Lemma retire_courseData l w : courseData (foldl step w l) = courseData w.
Proof.
  revert w. induction l as [|cs l IH]; intros w; [done|]. cbn [foldl]. rewrite IH.
  unfold step, notifyAndRetire. by destruct (delivery env _).
Qed.
End retire.

Lemma lookup_retired (l : list (Course * CourseSection)) (t : gmap Z (list string)) k :
  foldl (λ t cs, delete (crn cs.2) t) t l !! k
  = if decide (k ∈ (λ cs, crn cs.2) <$> l) then None else t !! k.
Proof.
  revert t. induction l as [|cs l IH]; intros t; cbn [foldl fmap list_fmap].
  - rewrite decide_False; [done|]. apply not_elem_of_nil.
  - rewrite IH. destruct (decide (k = crn cs.2)) as [->|Hne].
    + rewrite lookup_delete_eq. rewrite (decide_True (P := _ ∈ _ :: _)); [|by left].
      by case_decide.
    + rewrite lookup_delete_ne by done.
      destruct (decide (k ∈ (λ cs0, crn cs0.2) <$> l)) as [Hin|Hout].
      * rewrite decide_True; [done|]. by right.
      * rewrite decide_False; [done|]. by intros [?|?]%elem_of_cons.
Qed.

(** The search of [register] finds exactly the identifiers of the snapshot. *)
Lemma found_traversal departments c :
  found departments c = true ↔ ∃ cs, cs ∈ traversal departments ∧ crn cs.2 = c.
Proof.
  unfold found, traversal. rewrite existsb_exists. split.
  - intros (d & Hd & H). apply existsb_exists in H as (co & Hco & H).
    apply existsb_exists in H as (s & Hs & H). apply bool_decide_eq_true in H.
    exists (co, s). split; [|done].
    apply list_elem_of_bind. exists d. split; [|by apply list_elem_of_In].
    apply list_elem_of_bind. exists co. split; [|by apply list_elem_of_In].
    apply list_elem_of_fmap. exists s. split; [done|by apply list_elem_of_In].
  - intros ([co s] & H & Hc). cbn in Hc.
    apply list_elem_of_bind in H as (d & H & Hd).
    apply list_elem_of_bind in H as (co' & H & Hco).
    apply list_elem_of_fmap in H as (s' & [= <- <-] & Hs).
    exists d. split; [by apply list_elem_of_In|].
    apply existsb_exists. exists co. split; [by apply list_elem_of_In|].
    apply existsb_exists. exists s. split; [by apply list_elem_of_In|].
    by apply bool_decide_eq_true.
Qed.

(** A scan whose fetch succeeds hands over one mail per match, in order. *)
Lemma sent_matches env w departments :
  fetch env = Fulfilled departments →
  sent env w = (λ cs, mailFor env (watchers w) cs.1 cs.2) <$> matches (watchers w) departments.
Proof.
  intros H. unfold sent. rewrite (scan_fulfilled _ _ _ H). cbn [snd].
  rewrite retire_outbox. cbn [outbox set_courseData print]. apply drop_app_length.
Qed.

Lemma matched_iff listeners section :
  matched listeners section ↔ is_Some (listeners !! crn section) ∧ 0 < rem section.
Proof.
  unfold matched. rewrite andb_True, !bool_decide_spec. done.
Qed.

Lemma elem_of_matches listeners departments course section :
  (course, section) ∈ matches listeners departments ↔
  (course, section) ∈ traversal departments ∧
  is_Some (listeners !! crn section) ∧ 0 < rem section.
Proof.
  rewrite matches_filter, list_elem_of_filter. cbn [snd]. rewrite matched_iff. tauto.
Qed.

(** Distinct keys: at most one element carries a given key. *)
Lemma at_most_one_by_key {A} (f : A → Z) (l : list A) k :
  NoDup (f <$> l) → (length (filter (λ x, f x = k) l) ≤ 1)%nat.
Proof.
  induction l as [|x l IH]; [cbn; lia|].
  rewrite fmap_cons, NoDup_cons. intros [Hx Hl]. rewrite filter_cons.
  destruct (decide (f x = k)) as [<-|Hne]; [|by apply IH].
  destruct (filter (λ y, f y = f x) l) as [|y l'] eqn:E; [cbn; lia|].
  assert (Hy : y ∈ filter (λ y, f y = f x) l) by (rewrite E; left).
  apply list_elem_of_filter in Hy as [Hf Hy]. destruct Hx.
  apply list_elem_of_fmap. by exists y.
Qed.

(** ** Theorems about [scan] *)

(** C1. Every section met by a scan whose identifier has a row in the
    table and whose [rem] is positive has no row left once the scan is
    over, and this does not depend on what the mail transport reports:
    with any other delivery outcome the scan still completes and leaves
    the same table. *)
Theorem scan_retires_every_match env w departments course section :
  fetch env = Fulfilled departments →
  (course, section) ∈ traversal departments →
  is_Some (watchers w !! crn section) →
  0 < rem section →
  (scan env w).1 = Fulfilled () ∧
  watchers (scan env w).2 !! crn section = None ∧
  ∀ d, (scan (with_delivery d env) w).1 = Fulfilled () ∧
       watchers (scan (with_delivery d env) w).2 = watchers (scan env w).2.
Proof.
  intros Hf Hin Hrow Hrem.
  assert (Hscan : ∀ d, scan (with_delivery d env) w
                       = (Fulfilled (),
                          foldl (λ w' cs, notifyAndRetire (with_delivery d env) (watchers w) cs.1 cs.2 w')
                                (set_courseData departments (print (Info "Beginning scan...") w))
                                (matches (watchers w) departments)))
    by (intros d; by apply scan_fulfilled).
  rewrite (scan_fulfilled _ _ _ Hf). cbn [fst snd]. split; [done|]. split.
  - rewrite retire_watchers, lookup_retired. rewrite decide_True; [done|].
    apply list_elem_of_fmap. exists (course, section). split; [done|].
    by apply elem_of_matches.
  - intros d. rewrite Hscan. cbn [fst snd]. split; [done|].
    by rewrite !retire_watchers.
Qed.

Lemma scan_retires_every_match_witness :
  let w := Sample.waiting in
  (scan Sample.bouncing w).1 = Fulfilled () ∧
  watchers (scan Sample.bouncing w).2 !! 1234 = None ∧
  ∀ d, (scan (with_delivery d Sample.bouncing) w).1 = Fulfilled () ∧
       watchers (scan (with_delivery d Sample.bouncing) w).2
       = watchers (scan Sample.bouncing w).2.
Proof.
  apply (scan_retires_every_match Sample.bouncing Sample.waiting Sample.catalog
           Sample.dataStructures Sample.section01).
  - vm_compute. reflexivity.
  - vm_compute. left.
  - vm_compute. eexists. reflexivity.
  - vm_compute. reflexivity.
Defined.

(** C3. The index [listeners] that a scan builds is the table it was
    started on, row for row (the table is read once, after the fetch, and
    nothing in the scan writes to it before that).  The sections on which
    the scan runs its body are the sections of the snapshot, in traversal
    order (department, course, section), whose identifier is a key of
    that index, that is, has a row in the table, and whose [rem] is
    positive: exactly those and no other, one mail each. *)
Theorem scan_matches_iff env w departments :
  fetch env = Fulfilled departments →
  let listeners := listenerIndex (select (watchers w)) in
  listeners = watchers w ∧
  (∀ k, is_Some (listeners !! k) ↔ is_Some (watchers w !! k)) ∧
  sent env w = (λ cs, mailFor env listeners cs.1 cs.2) <$> matches listeners departments ∧
  matches listeners departments
  = filter (λ cs, is_Some (watchers w !! crn cs.2) ∧ 0 < rem cs.2) (traversal departments) ∧
  ∀ course section,
    (course, section) ∈ matches listeners departments ↔
    (course, section) ∈ traversal departments ∧
    is_Some (watchers w !! crn section) ∧ 0 < rem section.
Proof.
  intros Hf listeners. subst listeners. rewrite listenerIndex_select.
  split; [done|]. split; [done|].
  split; [by apply sent_matches|]. split.
  - rewrite matches_filter. apply list_filter_iff. intros [c s]. apply matched_iff.
  - apply elem_of_matches.
Qed.

Lemma scan_matches_iff_witness :
  let listeners := listenerIndex (select (watchers Sample.waiting)) in
  listeners = watchers Sample.waiting ∧
  (∀ k, is_Some (listeners !! k) ↔ is_Some (watchers Sample.waiting !! k)) ∧
  sent Sample.online Sample.waiting
  = (λ cs, mailFor Sample.online listeners cs.1 cs.2) <$> matches listeners Sample.catalog ∧
  matches listeners Sample.catalog
  = filter (λ cs, is_Some (watchers Sample.waiting !! crn cs.2) ∧ 0 < rem cs.2)
           (traversal Sample.catalog) ∧
  ∀ course section,
    (course, section) ∈ matches listeners Sample.catalog ↔
    (course, section) ∈ traversal Sample.catalog ∧
    is_Some (watchers Sample.waiting !! crn section) ∧ 0 < rem section.
Proof.
  apply (scan_matches_iff Sample.online Sample.waiting Sample.catalog).
  vm_compute. reflexivity.
Defined.

(** C7. For every match, on a section labelled [sec] with [rem] of [cap]
    seats left in a course titled [title], the scan hands the transporter
    a mail whose subject is "Course [title] section [sec] has a seat
    available!" and, [rem] and [cap] being safe integers, whose text is
    "rem/cap seats available" with both in decimal digits, addressed to
    the joined subscribers of the row; every mail of the scan is of that
    form.  In the scenario (one subscriber on section 1234, two of thirty
    seats left in section 01 of Data Structures) exactly that one mail is
    sent and the table is left empty. *)
Theorem notification_format :
  (∀ env w departments,
     fetch env = Fulfilled departments →
     (∀ course section,
        (course, section) ∈ traversal departments →
        is_Some (watchers w !! crn section) → 0 < rem section →
        isSafeInteger (rem section) → isSafeInteger (cap section) →
        ∃ m, m ∈ sent env w ∧
             to m = join ", " (subscribers w (crn section)) ∧
             subject m = "Course [" +:+ title course +:+ "] section [" +:+ sec section
                         +:+ "] has a seat available!" ∧
             text m = pretty (rem section) +:+ "/" +:+ pretty (cap section)
                      +:+ " seats available") ∧
     (∀ m, m ∈ sent env w →
        ∃ course section,
          (course, section) ∈ traversal departments ∧
          is_Some (watchers w !! crn section) ∧ 0 < rem section ∧
          subject m = "Course [" +:+ title course +:+ "] section [" +:+ sec section
                      +:+ "] has a seat available!" ∧
          (isSafeInteger (rem section) → isSafeInteger (cap section) →
           text m = pretty (rem section) +:+ "/" +:+ pretty (cap section)
                    +:+ " seats available"))) ∧
  sent Sample.online Sample.waiting
  = [ {| to := "u@rpi.edu";
         from := {| name := "QuACS Birdwatch"; address := "birdwatch@example.org" |};
         subject := "Course [Data Structures] section [01] has a seat available!";
         text := "2/30 seats available" |} ] ∧
  watchers (scan Sample.online Sample.waiting).2 = ∅.
Proof.
  split; [|split; vm_compute; reflexivity].
  intros env w departments Hf. rewrite (sent_matches _ _ _ Hf). split.
  - intros course section Hin Hrow Hrem _ _.
    exists (mailFor env (watchers w) course section). split.
    + apply list_elem_of_fmap. exists (course, section). split; [done|].
      by apply elem_of_matches.
    + unfold mailFor, recipientsOf, subscribers, show. cbn.
      destruct Hrow as [es ->]. done.
  - intros m ([course section] & -> & Hin)%list_elem_of_fmap.
    apply elem_of_matches in Hin as (Hin & Hrow & Hrem).
    exists course, section. done.
Qed.

Lemma notification_format_witness :
  ∃ m, m ∈ sent Sample.bouncing Sample.waiting ∧
       to m = join ", " (subscribers Sample.waiting 1234) ∧
       subject m = "Course [Data Structures] section [01] has a seat available!" ∧
       text m = "2/30 seats available".
Proof.
  apply (proj1 (proj1 notification_format Sample.bouncing Sample.waiting Sample.catalog
                  ltac:(vm_compute; reflexivity))
           Sample.dataStructures Sample.section01).
  - vm_compute. left.
  - vm_compute. eexists. reflexivity.
  - vm_compute. reflexivity.
  - unfold isSafeInteger. cbn. lia.
  - unfold isSafeInteger. cbn. lia.
Defined.

(** C8, as the code has it.  When no two sections of the fetched snapshot
    share an identifier, a scan runs its body, and so calls the
    transporter, at most once for any identifier; the mails it sends are
    one per run of the body.  (The index is not updated as rows are
    retired, so a snapshot listing an identifier twice is mailed twice.) *)
Theorem one_attempt_per_row env w departments k :
  fetch env = Fulfilled departments →
  NoDup ((λ cs, crn cs.2) <$> traversal departments) →
  (attempts env w k ≤ 1)%nat ∧
  length (sent env w) = length (matches (listenerIndex (select (watchers w))) departments).
Proof.
  intros Hf Hnd. unfold attempts. rewrite Hf, listenerIndex_select. split.
  - apply at_most_one_by_key. eapply sublist_NoDup; [exact Hnd|].
    apply fmap_sublist. rewrite matches_filter. apply sublist_filter.
  - by rewrite (sent_matches _ _ _ Hf), length_fmap.
Qed.

Lemma one_attempt_per_row_witness :
  (attempts Sample.online Sample.waiting 1234 ≤ 1)%nat ∧
  length (sent Sample.online Sample.waiting)
  = length (matches (listenerIndex (select (watchers Sample.waiting))) Sample.catalog).
Proof.
  apply (one_attempt_per_row Sample.online Sample.waiting Sample.catalog 1234).
  - vm_compute. reflexivity.
  - vm_compute. apply NoDup_singleton.
Defined.

(** C8 as stated fails: the table holds the single row 1234, the snapshot
    lists identifier 1234 under two departments, and the scan sends two
    mails for that row. *)
Lemma two_attempts_for_one_row :
  dom (watchers Sample.waiting) = {[ 1234 ]} ∧
  length (sent Sample.twice Sample.waiting) = 2%nat ∧
  ¬ (attempts Sample.twice Sample.waiting 1234 ≤ 1)%nat.
Proof.
  split; [|split].
  - apply set_eq. intros k. rewrite elem_of_dom, elem_of_singleton.
    unfold Sample.waiting, Sample.table. cbn [watchers].
    rewrite lookup_singleton_is_Some. done.
  - vm_compute. reflexivity.
  - vm_compute. lia.
Qed.

(** C5, as the code has it.  When the fetch fails the scan rejects with
    the error of the fetch; the cached snapshot, the table and the outbox
    are what they were, and the only line printed is the opening
    "Beginning scan...": the scan itself reports the failure to its caller
    and prints nothing about it. *)
Theorem scan_fetch_failure env w e :
  fetch env = Rejected e →
  (scan env w).1 = Rejected e ∧
  courseData (scan env w).2 = courseData w ∧
  watchers (scan env w).2 = watchers w ∧
  sent env w = [] ∧
  printed env w = [Info "Beginning scan..."].
Proof.
  intros Hf. unfold sent, printed. rewrite (scan_rejected _ _ _ Hf). cbn.
  by rewrite drop_all, drop_app_length.
Qed.

Lemma scan_fetch_failure_witness :
  let e := AxiosError "https://api.github.com/repos/quacs/quacs-data/contents/semester_data" in
  (scan Sample.offline Sample.idle).1 = Rejected e ∧
  courseData (scan Sample.offline Sample.idle).2 = courseData Sample.idle ∧
  watchers (scan Sample.offline Sample.idle).2 = watchers Sample.idle ∧
  sent Sample.offline Sample.idle = [] ∧
  printed Sample.offline Sample.idle = [Info "Beginning scan..."].
Proof.
  apply (scan_fetch_failure Sample.offline Sample.idle). vm_compute. reflexivity.
Defined.

(** C5 as stated fails on "the failure is logged": with the listing
    unreachable the fetch fails, and the console holds the opening line
    alone, no line for the failure. *)
Lemma fetch_failure_not_logged :
  (∃ e, fetch Sample.offline = Rejected e) ∧
  console (scan Sample.offline Sample.waiting).2 = [Info "Beginning scan..."] ∧
  ¬ ∃ msg, Error msg ∈ console (scan Sample.offline Sample.waiting).2.
Proof.
  split; [eexists; vm_compute; reflexivity|]. split; [vm_compute; reflexivity|].
  intros [msg H]. vm_compute in H. apply list_elem_of_singleton in H. discriminate.
Qed.

(** C10. On an empty listing of releases the last entry is [undefined]
    and reading its [path] throws: no snapshot comes out of the fetch, the
    scan rejects with that [TypeError], and the cached snapshot, the table
    and the outbox are what they were. *)
Theorem scan_empty_listing env w :
  listing env (GITHUB_API +:+ "/repos/quacs/quacs-data/contents/semester_data") = Some [] →
  (∀ departments, fetch env ≠ Fulfilled departments) ∧
  (∃ msg, (scan env w).1 = Rejected (TypeError msg)) ∧
  courseData (scan env w).2 = courseData w ∧
  watchers (scan env w).2 = watchers w ∧
  sent env w = [].
Proof.
  intros Hl.
  assert (Hf : fetch env = Rejected (TypeError "Cannot read properties of undefined (reading 'path')"))
    by (unfold fetch; by rewrite Hl).
  split; [intros d; by rewrite Hf|].
  unfold sent. rewrite (scan_rejected _ _ _ Hf). cbn.
  split; [by eexists|]. by rewrite drop_all.
Qed.

Lemma scan_empty_listing_witness :
  (∀ departments, fetch Sample.unreleased ≠ Fulfilled departments) ∧
  (∃ msg, (scan Sample.unreleased Sample.waiting).1 = Rejected (TypeError msg)) ∧
  courseData (scan Sample.unreleased Sample.waiting).2 = courseData Sample.waiting ∧
  watchers (scan Sample.unreleased Sample.waiting).2 = watchers Sample.waiting ∧
  sent Sample.unreleased Sample.waiting = [].
Proof.
  apply (scan_empty_listing Sample.unreleased Sample.waiting). vm_compute. reflexivity.
Defined.

(** ** Theorems about [register] *)

Lemma register_known env w departments c email :
  courseData w = Some departments →
  found departments c = true →
  register env c email w
  = (Fulfilled (),
     print (Log ("added " +:+ email +:+ " to " +:+ show c))
           (set_watchers (upsert c email (watchers w)) w)).
Proof. intros Hc Hf. unfold register, andThen. rewrite Hc. cbn. by rewrite Hc, Hf. Qed.

Lemma lookup_upsert c email (t : gmap Z (list string)) :
  upsert c email t !! c = Some (default [] (t !! c) ++ [email]).
Proof. unfold upsert. destruct (t !! c); by rewrite lookup_insert_eq. Qed.

(** A registration of a known identifier appends to its row. *)
Lemma register_appends env w departments c email :
  courseData w = Some departments →
  found departments c = true →
  (register env c email w).1 = Fulfilled () ∧
  courseData (register env c email w).2 = Some departments ∧
  subscribers (register env c email w).2 c = subscribers w c ++ [email].
Proof.
  intros Hc Hf. rewrite (register_known _ _ _ _ _ Hc Hf). cbn [fst snd].
  split; [done|]. split; [done|].
  unfold subscribers. cbn [watchers print set_watchers]. by rewrite lookup_upsert.
Qed.

Lemma occurrences_app email (l k : list string) :
  occurrences email (l ++ k) = (occurrences email l + occurrences email k)%nat.
Proof. unfold occurrences. by rewrite filter_app, length_app. Qed.

(** C4. With a snapshot cached in which no section has identifier [c],
    [register c email] rejects with [Error('not found')] and leaves the
    table, and the rest of the state, exactly as they were. *)
Theorem register_unknown_section env w departments c email :
  courseData w = Some departments →
  (∀ course section, (course, section) ∈ traversal departments → crn section ≠ c) →
  register env c email w = (Rejected (Err "not found"), w).
Proof.
  intros Hc Habsent. unfold register, andThen. rewrite Hc. cbn. rewrite Hc.
  destruct (found departments c) eqn:Hf; [|done].
  apply found_traversal in Hf as ([course section] & Hin & Heq).
  by destruct (Habsent course section Hin).
Qed.

Lemma register_unknown_section_witness :
  register Sample.online 999999 "a@x.com" Sample.shared
  = (Rejected (Err "not found"), Sample.shared).
Proof.
  apply (register_unknown_section Sample.online Sample.shared Sample.catalog).
  - reflexivity.
  - intros course section Hin. vm_compute in Hin.
    apply list_elem_of_singleton in Hin. injection Hin as _ ->. vm_compute. discriminate.
Defined.

(** C2, as the code has it.  With a catalogue cached that lists the
    section (so that no scan is triggered), each registration appends the
    email to the row's array ([watchers.emails || EXCLUDED.emails], with
    no removal of duplicates): registering the same pair twice leaves the
    array two occurrences longer, the email occurring twice more than
    before. *)
Theorem register_twice_appends env w departments c email :
  courseData w = Some departments →
  (∃ course section, (course, section) ∈ traversal departments ∧ crn section = c) →
  let w1 := (register env c email w).2 in
  let w2 := (register env c email w1).2 in
  (register env c email w).1 = Fulfilled () ∧
  (register env c email w1).1 = Fulfilled () ∧
  subscribers w2 c = subscribers w c ++ [email; email] ∧
  occurrences email (subscribers w2 c) = (occurrences email (subscribers w c) + 2)%nat.
Proof.
  intros Hc (course & section & Hin & Heq).
  assert (Hf : found departments c = true)
    by (apply found_traversal; by exists (course, section)).
  cbn zeta.
  destruct (register_appends env w departments c email Hc Hf) as (Hok1 & Hc1 & Hs1).
  destruct (register_appends env _ departments c email Hc1 Hf) as (Hok2 & _ & Hs2).
  split; [done|]. split; [done|].
  assert (Hs : subscribers (register env c email (register env c email w).2).2 c
               = subscribers w c ++ [email; email])
    by (by rewrite Hs2, Hs1, <- app_assoc).
  split; [exact Hs|]. rewrite Hs, occurrences_app. f_equal.
  unfold occurrences. by rewrite !filter_cons_True.
Qed.

Lemma register_twice_appends_witness :
  let w1 := (register Sample.online 1234 "u@rpi.edu" Sample.idle).2 in
  let w2 := (register Sample.online 1234 "u@rpi.edu" w1).2 in
  (register Sample.online 1234 "u@rpi.edu" Sample.idle).1 = Fulfilled () ∧
  (register Sample.online 1234 "u@rpi.edu" w1).1 = Fulfilled () ∧
  subscribers w2 1234 = subscribers Sample.idle 1234 ++ ["u@rpi.edu"; "u@rpi.edu"] ∧
  occurrences "u@rpi.edu" (subscribers w2 1234)
  = (occurrences "u@rpi.edu" (subscribers Sample.idle 1234) + 2)%nat.
Proof.
  apply (register_twice_appends Sample.online Sample.idle Sample.catalog).
  - reflexivity.
  - exists Sample.dataStructures, Sample.section01. split; [vm_compute; left|reflexivity].
Defined.

(** C2 as stated fails: registering [u@rpi.edu] on section 1234 twice,
    starting from an empty table, leaves the row holding the email twice,
    not once. *)
Lemma register_twice_duplicates :
  let w1 := (register Sample.online 1234 "u@rpi.edu" Sample.idle).2 in
  let w2 := (register Sample.online 1234 "u@rpi.edu" w1).2 in
  subscribers w2 1234 = ["u@rpi.edu"; "u@rpi.edu"] ∧
  occurrences "u@rpi.edu" (subscribers w2 1234) ≠ 1%nat.
Proof. split; [vm_compute; reflexivity|vm_compute; lia]. Qed.

(** ** Theorems about [purge] *)

Lemma not_elem_of_ARRAY_REMOVE es email : email ∉ ARRAY_REMOVE es email.
Proof. unfold ARRAY_REMOVE. rewrite list_elem_of_filter. by intros [? _]. Qed.

(** A truthy identifier scopes the update to its row. *)
Lemma purge_scoped email c w :
  c ≠ 0 →
  purge email (Some c) w
  = (Fulfilled (),
     print (Log ("removed " +:+ email +:+ " from " +:+ show c))
           (set_watchers (alter (λ es, ARRAY_REMOVE es email) c (watchers w)) w)).
Proof.
  intros Hc. unfold purge, andThen, effect, truthy.
  by rewrite bool_decide_eq_true_2.
Qed.

(** Without one, every row is updated and the statement reports them all. *)
Lemma purge_unscoped email c w :
  truthy c = false →
  purge email c w
  = (Fulfilled (),
     print (Log ("removed " +:+ email +:+ " from " +:+
                 match c with
                 | Some n => show n
                 | None => pretty (size (watchers w)) +:+ " CRNs"
                 end))
           (set_watchers ((λ es, ARRAY_REMOVE es email) <$> watchers w) w)).
Proof. intros Hc. unfold purge, andThen, effect. by rewrite Hc. Qed.

(** The scoped purge keeps every row, the emptied one included, and only
    rewrites the row it names; it succeeds whether or not the email was
    there. *)
Lemma purge_scoped_rows email c w k :
  c ≠ 0 →
  (purge email (Some c) w).1 = Fulfilled () ∧
  dom (watchers (purge email (Some c) w).2) = dom (watchers w) ∧
  watchers (purge email (Some c) w).2 !! k
  = if decide (k = c) then (λ es, ARRAY_REMOVE es email) <$> watchers w !! k
    else watchers w !! k.
Proof.
  intros Hc. rewrite (purge_scoped _ _ _ Hc). cbn.
  split; [done|]. split; [apply dom_alter_L|].
  rewrite lookup_alter. case_decide; case_decide; congruence.
Qed.

(** The global purge rewrites every row and prints how many there are. *)
Lemma purge_global_rows email w k :
  (purge email None w).1 = Fulfilled () ∧
  watchers (purge email None w).2 !! k
  = (λ es, ARRAY_REMOVE es email) <$> watchers w !! k ∧
  console (purge email None w).2
  = console w ++ [Log ("removed " +:+ email +:+ " from "
                       +:+ pretty (size (watchers w)) +:+ " CRNs")].
Proof.
  rewrite (purge_unscoped _ None) by done. cbn.
  split; [done|]. split; [apply lookup_fmap|done].
Qed.

(** C9. [purge email 0] runs the update with no [where]: it leaves the
    table that [purge email] with no identifier leaves, the email removed
    from every row; a purge given a nonzero identifier leaves every other
    row as it was. *)
Theorem purge_zero_is_global email w :
  watchers (purge email (Some 0) w).2 = watchers (purge email None w).2 ∧
  (∀ k, watchers (purge email (Some 0) w).2 !! k
        = (λ es, ARRAY_REMOVE es email) <$> watchers w !! k) ∧
  (∀ k es, watchers (purge email (Some 0) w).2 !! k = Some es → email ∉ es) ∧
  (∀ c k, c ≠ 0 → k ≠ c →
          watchers (purge email (Some c) w).2 !! k = watchers w !! k).
Proof.
  rewrite (purge_unscoped _ (Some 0)), (purge_unscoped _ None) by done. cbn [snd].
  split; [done|]. cbn [watchers print set_watchers].
  split; [intros k; apply lookup_fmap|]. split.
  - intros k es. rewrite lookup_fmap. destruct (watchers w !! k); [|done].
    intros [= <-]. apply not_elem_of_ARRAY_REMOVE.
  - intros c k Hc Hk. destruct (purge_scoped_rows email c w k Hc) as (_ & _ & ->).
    by rewrite decide_False.
Qed.

Lemma purge_zero_is_global_witness :
  watchers (purge "a@x.com" (Some 0) Sample.shared).2 !! 5 = Some ["b@x.com"] ∧
  ("a@x.com" ∉ ["b@x.com"]) ∧
  watchers (purge "a@x.com" (Some 5) Sample.shared).2 !! 0 = watchers Sample.shared !! 0.
Proof.
  split; [vm_compute; reflexivity|]. split.
  - apply (proj1 (proj2 (proj2 (purge_zero_is_global "a@x.com" Sample.shared))) 5).
    vm_compute. reflexivity.
  - apply (proj2 (proj2 (proj2 (purge_zero_is_global "a@x.com" Sample.shared))) 5 0); lia.
Defined.

(** C6 at identifier zero.  The table has rows 0 and 5, both holding
    [a@x.com]; [purge "a@x.com" 0] also strips the email from row 5, while
    the console line names identifier 0 alone. *)
Theorem purge_zero_reaches_other_rows :
  let w' := (purge "a@x.com" (Some 0) Sample.shared).2 in
  watchers Sample.shared !! 5 = Some ["a@x.com"; "b@x.com"] ∧
  watchers w' !! 0 = Some [] ∧
  watchers w' !! 5 = Some ["b@x.com"] ∧
  console w' = [Log "removed a@x.com from 0"].
Proof. repeat split; vm_compute; reflexivity. Qed.


(** ** More about [scan] *)

(** The table a fulfilled scan leaves, row by row. *)
Lemma scan_lookup env w departments k :
  fetch env = Fulfilled departments →
  watchers (scan env w).2 !! k
  = if decide (k ∈ (λ cs, crn cs.2) <$> matches (watchers w) departments)
    then None else watchers w !! k.
Proof.
  intros Hf. rewrite (scan_fulfilled _ _ _ Hf). cbn [snd].
  by rewrite retire_watchers, lookup_retired.
Qed.

Lemma retire_initialized env listeners (l : list (Course * CourseSection)) w :
  initialized (foldl (λ w' cs, notifyAndRetire env listeners cs.1 cs.2 w') w l)
  = initialized w.
Proof.
  revert w. induction l as [|cs l IH]; intros w; [done|]. cbn [foldl]. rewrite IH.
  unfold notifyAndRetire. by destruct (delivery env _).
Qed.

Lemma scan_initialized env w : initialized (scan env w).2 = initialized w.
Proof.
  destruct (fetch env) as [departments|e] eqn:Hf.
  - rewrite (scan_fulfilled _ _ _ Hf). cbn [snd]. by rewrite retire_initialized.
  - by rewrite (scan_rejected _ _ _ Hf).
Qed.

(** Once a scan has fulfilled, nothing in its catalogue matches what is
    left of the table. *)
Lemma matches_after_scan env w departments :
  fetch env = Fulfilled departments →
  matches (watchers (scan env w).2) departments = [].
Proof.
  intros Hf.
  destruct (matches _ departments) as [|[course section] l] eqn:E; [done|].
  assert (Hin : (course, section) ∈ matches (watchers (scan env w).2) departments)
    by (rewrite E; left).
  apply elem_of_matches in Hin as (Hin & Hrow & Hrem).
  rewrite (scan_lookup _ _ _ _ Hf) in Hrow. case_decide as Hk.
  - by destruct Hrow.
  - destruct Hk. apply list_elem_of_fmap. exists (course, section).
    split; [done|]. by apply elem_of_matches.
Qed.

(** A scan that finds no match sends nothing and keeps the table. *)
Lemma quiet_scan env w departments :
  fetch env = Fulfilled departments →
  matches (watchers w) departments = [] →
  outbox (scan env w).2 = outbox w ∧ watchers (scan env w).2 = watchers w.
Proof.
  intros Hf Hnone. rewrite (scan_fulfilled _ _ _ Hf), Hnone. done.
Qed.

(** One shot: a scan that follows a fulfilled scan and fetches the same
    catalogue sends no mail and leaves the table as it found it, whatever
    the mail transport did the first time. *)
Theorem scan_one_shot env env' w departments :
  fetch env = Fulfilled departments →
  fetch env' = Fulfilled departments →
  sent env' (scan env w).2 = [] ∧
  watchers (scan env' (scan env w).2).2 = watchers (scan env w).2.
Proof.
  intros Hf Hf'. pose proof (matches_after_scan env w _ Hf) as Hnone. split.
  - by rewrite (sent_matches _ _ _ Hf'), Hnone.
  - by apply (quiet_scan env' _ departments).
Qed.

Lemma scan_one_shot_witness :
  sent Sample.bouncing (scan Sample.online Sample.waiting).2 = [] ∧
  watchers (scan Sample.bouncing (scan Sample.online Sample.waiting).2).2
  = watchers (scan Sample.online Sample.waiting).2.
Proof.
  apply (scan_one_shot Sample.online Sample.bouncing Sample.waiting Sample.catalog);
    vm_compute; reflexivity.
Defined.

(** A row survives a scan untouched when the fetched catalogue has no
    section with its identifier and a positive [rem] (the section is full,
    or is not listed at all). *)
Theorem scan_keeps_unmatched env w departments k :
  fetch env = Fulfilled departments →
  (∀ course section,
     (course, section) ∈ traversal departments → crn section = k → rem section ≤ 0) →
  watchers (scan env w).2 !! k = watchers w !! k.
Proof.
  intros Hf Hfull. rewrite (scan_lookup _ _ _ _ Hf).
  rewrite decide_False; [done|].
  intros ([course section] & -> & Hin)%list_elem_of_fmap.
  apply elem_of_matches in Hin as (Hin & _ & Hrem).
  specialize (Hfull course section Hin eq_refl). lia.
Qed.

Lemma scan_keeps_unmatched_witness :
  watchers (scan Scenario.soldOut Sample.waiting).2 !! 1234
  = watchers Sample.waiting !! 1234.
Proof.
  apply (scan_keeps_unmatched Scenario.soldOut Sample.waiting Scenario.full 1234).
  - vm_compute. reflexivity.
  - intros course section Hin. vm_compute in Hin.
    apply list_elem_of_singleton in Hin. injection Hin as _ ->. intros _. vm_compute.
    discriminate.
Defined.

(** A scan only ever deletes rows: whatever row the table holds after a
    scan, fulfilled or rejected, it held before with the same emails. *)
Theorem scan_only_deletes env w k es :
  watchers (scan env w).2 !! k = Some es → watchers w !! k = Some es.
Proof.
  destruct (fetch env) as [departments|e] eqn:Hf.
  - rewrite (scan_lookup _ _ _ _ Hf). by case_decide.
  - by rewrite (scan_rejected _ _ _ Hf).
Qed.

Lemma scan_only_deletes_witness :
  watchers Sample.shared !! 5 = Some ["a@x.com"; "b@x.com"].
Proof.
  apply (scan_only_deletes Sample.online Sample.shared 5).
  vm_compute. reflexivity.
Defined.

(** With an empty table a scan mails nobody and leaves the table empty,
    whatever the catalogue offers. *)
Theorem scan_empty_table env w :
  watchers w = ∅ →
  sent env w = [] ∧ watchers (scan env w).2 = ∅.
Proof.
  intros He. destruct (fetch env) as [departments|e] eqn:Hf.
  - assert (Hnone : matches (watchers w) departments = []).
    { destruct (matches _ departments) as [|[course section] l] eqn:E; [done|].
      assert (Hin : (course, section) ∈ matches (watchers w) departments)
        by (rewrite E; left).
      apply elem_of_matches in Hin as (_ & [es Hrow] & _).
      by rewrite He, lookup_empty in Hrow. }
    split.
    + by rewrite (sent_matches _ _ _ Hf), Hnone.
    + apply map_eq. intros k. rewrite (scan_lookup _ _ _ _ Hf), Hnone, He.
      by case_decide.
  - unfold sent. rewrite (scan_rejected _ _ _ Hf). cbn. by rewrite drop_all.
Qed.

Lemma scan_empty_table_witness :
  sent Sample.online Sample.idle = [] ∧ watchers (scan Sample.online Sample.idle).2 = ∅.
Proof. apply (scan_empty_table Sample.online Sample.idle). reflexivity. Defined.

(** A row whose array of emails is empty still matches: for a section
    with a seat the scan calls the transporter with an empty recipient
    string, and retires the row. *)
Theorem empty_row_still_mailed env w departments course section :
  fetch env = Fulfilled departments →
  (course, section) ∈ traversal departments →
  watchers w !! crn section = Some [] →
  0 < rem section →
  (∃ m, m ∈ sent env w ∧ to m = String.EmptyString ∧
        m = mailFor env (watchers w) course section) ∧
  watchers (scan env w).2 !! crn section = None.
Proof.
  intros Hf Hin Hrow Hrem.
  assert (Hm : (course, section) ∈ matches (watchers w) departments)
    by (apply elem_of_matches; by rewrite Hrow).
  split.
  - exists (mailFor env (watchers w) course section). split; [|split; [|done]].
    + rewrite (sent_matches _ _ _ Hf). apply list_elem_of_fmap. by exists (course, section).
    + unfold mailFor, recipientsOf. cbn. by rewrite Hrow.
  - rewrite (scan_lookup _ _ _ _ Hf). rewrite decide_True; [done|].
    apply list_elem_of_fmap. by exists (course, section).
Qed.

Lemma empty_row_still_mailed_witness :
  (∃ m, m ∈ sent Sample.online Scenario.emptied ∧ to m = String.EmptyString ∧
        m = mailFor Sample.online (watchers Scenario.emptied)
              Sample.dataStructures Sample.section01) ∧
  watchers (scan Sample.online Scenario.emptied).2 !! 1234 = None.
Proof.
  apply (empty_row_still_mailed Sample.online Scenario.emptied Sample.catalog
           Sample.dataStructures Sample.section01).
  - vm_compute. reflexivity.
  - vm_compute. left.
  - vm_compute. reflexivity.
  - vm_compute. reflexivity.
Defined.

(** A fulfilled scan replaces the cached catalogue by the fetched one,
    whatever was cached, and never moves the [initialized] flag. *)
Theorem scan_caches_snapshot env w departments :
  fetch env = Fulfilled departments →
  courseData (scan env w).2 = Some departments ∧
  initialized (scan env w).2 = initialized w.
Proof.
  intros Hf. split; [|apply scan_initialized].
  rewrite (scan_fulfilled _ _ _ Hf). cbn [snd]. by rewrite retire_courseData.
Qed.

Lemma scan_caches_snapshot_witness :
  courseData (scan Scenario.soldOut Sample.idle).2 = Some Scenario.full ∧
  initialized (scan Scenario.soldOut Sample.idle).2 = initialized Sample.idle.
Proof.
  apply (scan_caches_snapshot Scenario.soldOut Sample.idle). vm_compute. reflexivity.
Defined.

(** Only the last entry of the listing counts: whatever precedes it, the
    catalogue fetched is the [courses.json] under the last entry's path,
    and a failure of that request is the failure of the fetch. *)
Theorem fetch_last_entry env earlier latest :
  listing env (GITHUB_API +:+ "/repos/quacs/quacs-data/contents/semester_data")
  = Some (earlier ++ [latest]) →
  let url := GITHUB_CDN +:+ "/quacs/quacs-data/master/" +:+ path latest +:+ "/courses.json" in
  fetch env = match cdn env url with
              | Some departments => Fulfilled departments
              | None => Rejected (AxiosError url)
              end.
Proof. intros Hl. unfold fetch. by rewrite Hl, last_snoc. Qed.

Lemma fetch_last_entry_witness :
  let url := GITHUB_CDN +:+ "/quacs/quacs-data/master/" +:+ "semester_data/202409"
             +:+ "/courses.json" in
  fetch Sample.online = match cdn Sample.online url with
                        | Some departments => Fulfilled departments
                        | None => Rejected (AxiosError url)
                        end.
Proof.
  apply (fetch_last_entry Sample.online [ {| path := "semester_data/202405" |} ]
           {| path := "semester_data/202409" |}).
  vm_compute. reflexivity.
Defined.

(** ** More about [register] *)

(** With a catalogue cached, [register] is a matter between the caller
    and the table: it settles the same way whatever the network and the
    mailer would answer, sends no mail, keeps the cached catalogue, and
    leaves every other row alone. *)
Theorem register_cached_is_local env w departments c email :
  courseData w = Some departments →
  (∀ env', register env' c email w = register env c email w) ∧
  outbox (register env c email w).2 = outbox w ∧
  courseData (register env c email w).2 = Some departments ∧
  ∀ k, k ≠ c → watchers (register env c email w).2 !! k = watchers w !! k.
Proof.
  intros Hc.
  assert (Hreg : ∀ e, register e c email w
                      = if found departments c
                        then (Fulfilled (),
                              print (Log ("added " +:+ email +:+ " to " +:+ show c))
                                    (set_watchers (upsert c email (watchers w)) w))
                        else (Rejected (Err "not found"), w)).
  { intros e. unfold register, andThen. rewrite Hc. cbn. rewrite Hc.
    by destruct (found departments c). }
  split; [intros env'; by rewrite !Hreg|]. rewrite Hreg.
  destruct (found departments c); cbn; [|done].
  split; [done|]. split; [done|]. intros k Hk. unfold upsert.
  destruct (watchers w !! c); by rewrite lookup_insert_ne.
Qed.

Lemma register_cached_is_local_witness :
  (∀ env', register env' 1234 "c@x.com" Sample.shared
           = register Sample.offline 1234 "c@x.com" Sample.shared) ∧
  outbox (register Sample.offline 1234 "c@x.com" Sample.shared).2 = outbox Sample.shared ∧
  courseData (register Sample.offline 1234 "c@x.com" Sample.shared).2 = Some Sample.catalog ∧
  ∀ k, k ≠ 1234 →
       watchers (register Sample.offline 1234 "c@x.com" Sample.shared).2 !! k
       = watchers Sample.shared !! k.
Proof.
  apply (register_cached_is_local Sample.offline Sample.shared Sample.catalog).
  reflexivity.
Defined.

(** With nothing cached, [register] scans first; when that fetch fails
    the registration rejects with the error of the fetch, and the table
    and the cache are what they were. *)
Theorem register_cold_fetch_failure env w c email e :
  courseData w = None →
  fetch env = Rejected e →
  (register env c email w).1 = Rejected e ∧
  watchers (register env c email w).2 = watchers w ∧
  courseData (register env c email w).2 = None.
Proof.
  intros Hc Hf. unfold register, andThen. rewrite Hc, (scan_rejected _ _ _ Hf). done.
Qed.

Lemma register_cold_fetch_failure_witness :
  let e := AxiosError "https://api.github.com/repos/quacs/quacs-data/contents/semester_data" in
  (register Sample.offline 1234 "v@rpi.edu" Sample.waiting).1 = Rejected e ∧
  watchers (register Sample.offline 1234 "v@rpi.edu" Sample.waiting).2
  = watchers Sample.waiting ∧
  courseData (register Sample.offline 1234 "v@rpi.edu" Sample.waiting).2 = None.
Proof.
  apply (register_cold_fetch_failure Sample.offline Sample.waiting 1234 "v@rpi.edu");
    vm_compute; reflexivity.
Defined.

(** What [register] does after the scan it triggers has fulfilled. *)
Lemma register_cold env w departments c email :
  courseData w = None →
  fetch env = Fulfilled departments →
  register env c email w
  = if found departments c
    then (Fulfilled (),
          print (Log ("added " +:+ email +:+ " to " +:+ show c))
                (set_watchers (upsert c email (watchers (scan env w).2)) (scan env w).2))
    else (Rejected (Err "not found"), (scan env w).2).
Proof.
  intros Hc Hf.
  assert (Hcd : courseData (scan env w).2 = Some departments).
  { rewrite (scan_fulfilled _ _ _ Hf). cbn [snd]. by rewrite retire_courseData. }
  unfold register, andThen. rewrite Hc.
  destruct (scan env w) as [r w1] eqn:Hs.
  assert (Hr : r = Fulfilled ()).
  { pose proof (scan_fulfilled env w _ Hf) as H. rewrite Hs in H. by injection H. }
  subst r. cbn [snd] in *. rewrite Hcd.
  by destruct (found departments c).
Qed.

(** Registering an unknown identifier with nothing cached rejects with
    [Error('not found')] only after the triggered scan has run: the state
    left behind is the state after that scan, catalogue cached and matched
    rows retired. *)
Theorem register_cold_unknown env w departments c email :
  courseData w = None →
  fetch env = Fulfilled departments →
  (∀ course section, (course, section) ∈ traversal departments → crn section ≠ c) →
  register env c email w = (Rejected (Err "not found"), (scan env w).2).
Proof.
  intros Hc Hf Habsent. rewrite (register_cold _ _ _ _ _ Hc Hf).
  destruct (found departments c) eqn:Hfound; [|done].
  apply found_traversal in Hfound as ([course section] & Hin & Heq).
  by destruct (Habsent course section Hin).
Qed.

Lemma register_cold_unknown_witness :
  register Sample.online 999999 "a@x.com" Sample.waiting
  = (Rejected (Err "not found"), (scan Sample.online Sample.waiting).2).
Proof.
  apply (register_cold_unknown Sample.online Sample.waiting Sample.catalog).
  - reflexivity.
  - vm_compute. reflexivity.
  - intros course section Hin. vm_compute in Hin.
    apply list_elem_of_singleton in Hin. injection Hin as _ ->. vm_compute. discriminate.
Defined.

(** Registration followed by a scan: once [email] is registered on a
    cached section, a scan that finds a seat in that section sends a mail
    whose recipients are the earlier subscribers followed by [email],
    joined by a comma and a space. *)
Theorem register_then_scan_notifies env env' w cached departments course section email :
  courseData w = Some cached →
  found cached (crn section) = true →
  fetch env' = Fulfilled departments →
  (course, section) ∈ traversal departments →
  0 < rem section →
  let w1 := (register env (crn section) email w).2 in
  ∃ m, m ∈ sent env' w1 ∧
       to m = join ", " (subscribers w (crn section) ++ [email]).
Proof.
  intros Hc Hfound Hf Hin Hrem. cbn zeta.
  destruct (register_appends env w cached (crn section) email Hc Hfound) as (_ & _ & Hs).
  set (w1 := (register env (crn section) email w).2) in *.
  assert (Hrow : watchers w1 !! crn section = Some (subscribers w (crn section) ++ [email])).
  { unfold w1. rewrite (register_known _ _ _ _ _ Hc Hfound). cbn. apply lookup_upsert. }
  exists (mailFor env' (watchers w1) course section). split.
  - rewrite (sent_matches _ _ _ Hf). apply list_elem_of_fmap. exists (course, section).
    split; [done|]. apply elem_of_matches. by rewrite Hrow.
  - unfold mailFor, recipientsOf. cbn. by rewrite Hrow.
Qed.

Lemma register_then_scan_notifies_witness :
  let w1 := (register Sample.offline 1234 "v@rpi.edu" Scenario.doubled).2 in
  ∃ m, m ∈ sent Sample.online w1 ∧
       to m = join ", " (subscribers Scenario.doubled 1234 ++ ["v@rpi.edu"]).
Proof.
  apply (register_then_scan_notifies Sample.offline Sample.online Scenario.doubled
           Sample.catalog Sample.catalog Sample.dataStructures Sample.section01 "v@rpi.edu").
  - reflexivity.
  - vm_compute. reflexivity.
  - vm_compute. reflexivity.
  - vm_compute. left.
  - vm_compute. reflexivity.
Defined.

(** ** More about [purge] *)

Lemma ARRAY_REMOVE_occurrences e email (es : list string) :
  occurrences e (ARRAY_REMOVE es email)
  = if decide (e = email) then 0%nat else occurrences e es.
Proof.
  unfold occurrences, ARRAY_REMOVE. induction es as [|x es IH].
  - by case_decide.
  - rewrite (filter_cons (λ y, y ≠ email)), (filter_cons (λ y, y = e) x es).
    destruct (decide (x ≠ email)) as [Hx|Hx].
    + rewrite filter_cons. destruct (decide (x = e)) as [->|Hne]; cbn [length].
      * rewrite IH. by rewrite !decide_False.
      * exact IH.
    + apply dec_stable in Hx. subst x. rewrite IH.
      destruct (decide (e = email)) as [->|Hne]; [done|].
      by rewrite decide_False.
Qed.

Lemma ARRAY_REMOVE_twice email (es : list string) :
  ARRAY_REMOVE (ARRAY_REMOVE es email) email = ARRAY_REMOVE es email.
Proof.
  unfold ARRAY_REMOVE. rewrite list_filter_filter. apply list_filter_iff. tauto.
Qed.

(** The table a purge leaves, row by row: the rows in scope lose the
    email, the others are as they were. *)
Lemma purge_lookup email c w k :
  watchers (purge email c w).2 !! k
  = if decide (truthy c = false ∨ c = Some k)
    then (λ es, ARRAY_REMOVE es email) <$> watchers w !! k
    else watchers w !! k.
Proof.
  destruct (truthy c) eqn:Ht.
  - destruct c as [n|]; [|done]. apply bool_decide_eq_true in Ht.
    destruct (purge_scoped_rows email n w k Ht) as (_ & _ & ->).
    destruct (decide (k = n)) as [->|Hk].
    + rewrite decide_True; [done|]. by right.
    + rewrite decide_False; [done|]. intros [?|[= ->]]; done.
  - rewrite (purge_unscoped _ _ _ Ht). cbn [snd watchers print set_watchers].
    rewrite lookup_fmap. rewrite decide_True; [done|]. by left.
Qed.

(** Purging twice is purging once: a second purge with the same
    arguments leaves the table the first one left. *)
Theorem purge_idempotent email c w :
  watchers (purge email c (purge email c w).2).2 = watchers (purge email c w).2.
Proof.
  apply map_eq. intros k. rewrite (purge_lookup email c (purge email c w).2).
  case_decide; [|done]. rewrite purge_lookup. rewrite decide_True by done.
  destruct (watchers w !! k); [|done].
  cbn [fmap option_fmap option_map]. by rewrite ARRAY_REMOVE_twice.
Qed.

(** A purge never creates a row and never deletes one, whatever it is
    given (a missing row, an identifier of zero, none at all); it always
    fulfils and touches neither the cache nor the outbox. *)
Theorem purge_keeps_rows email c w :
  (purge email c w).1 = Fulfilled () ∧
  dom (watchers (purge email c w).2) = dom (watchers w) ∧
  courseData (purge email c w).2 = courseData w ∧
  outbox (purge email c w).2 = outbox w.
Proof.
  destruct (truthy c) eqn:Ht.
  - destruct c as [n|]; [|done]. apply bool_decide_eq_true in Ht.
    rewrite (purge_scoped _ _ _ Ht). cbn. split; [done|]. split; [|done].
    apply dom_alter_L.
  - rewrite (purge_unscoped _ _ _ Ht). cbn. split; [done|]. split; [|done].
    apply dom_fmap_L.
Qed.

(** A purge spares every other address: in every row, each address other
    than the purged one occurs as many times after as before. *)
Theorem purge_spares_other_emails email c w k e :
  e ≠ email →
  occurrences e (subscribers (purge email c w).2 k) = occurrences e (subscribers w k).
Proof.
  intros He. unfold subscribers. rewrite purge_lookup. case_decide; [|done].
  destruct (watchers w !! k); [|done].
  cbn [fmap option_fmap option_map from_option Datatypes.id]. rewrite ARRAY_REMOVE_occurrences.
  by rewrite decide_False.
Qed.

Lemma purge_spares_other_emails_witness :
  occurrences "b@x.com" (subscribers (purge "a@x.com" None Sample.shared).2 5)
  = occurrences "b@x.com" (subscribers Sample.shared 5).
Proof.
  apply (purge_spares_other_emails "a@x.com" None Sample.shared 5 "b@x.com").
  discriminate.
Defined.

(** A purge scoped to a nonzero identifier removes every occurrence of
    the email from that row, however often it had been registered. *)
Theorem purge_removes_every_occurrence email c w :
  c ≠ 0 →
  occurrences email (subscribers (purge email (Some c) w).2 c) = 0%nat.
Proof.
  intros Hc. unfold subscribers. rewrite purge_lookup.
  rewrite decide_True by (by right).
  destruct (watchers w !! c); [|done].
  cbn [fmap option_fmap option_map from_option Datatypes.id]. rewrite ARRAY_REMOVE_occurrences.
  by rewrite decide_True.
Qed.

Lemma purge_removes_every_occurrence_witness :
  occurrences "u@rpi.edu" (subscribers (purge "u@rpi.edu" (Some 1234) Scenario.doubled).2 1234)
  = 0%nat.
Proof. apply (purge_removes_every_occurrence "u@rpi.edu" 1234 Scenario.doubled). lia. Defined.

(** Registering and then purging does not restore a table that had no
    row for the section: the row created by the registration stays, with
    an empty array of emails. *)
Theorem register_then_purge_leaves_empty_row env w departments c email :
  courseData w = Some departments →
  found departments c = true →
  c ≠ 0 →
  watchers w !! c = None →
  watchers (purge email (Some c) (register env c email w).2).2 !! c = Some [].
Proof.
  intros Hcd Hf Hc Hrow. rewrite purge_lookup. rewrite decide_True by (by right).
  rewrite (register_known _ _ _ _ _ Hcd Hf). cbn [snd watchers print set_watchers].
  rewrite lookup_upsert, Hrow.
  cbn [fmap option_fmap option_map from_option Datatypes.id app]. unfold ARRAY_REMOVE.
  by rewrite filter_cons_False by (intros H; by apply H).
Qed.

Lemma register_then_purge_leaves_empty_row_witness :
  watchers (purge "u@rpi.edu" (Some 1234)
              (register Sample.online 1234 "u@rpi.edu" Sample.idle).2).2 !! 1234
  = Some [].
Proof.
  apply (register_then_purge_leaves_empty_row Sample.online Sample.idle Sample.catalog).
  - reflexivity.
  - vm_compute. reflexivity.
  - lia.
  - vm_compute. reflexivity.
Defined.

(** ** The process *)

(** [Process.init] acts on the watcher as [init] does. *)
Lemma Process_init_self env p :
  Process.self (Process.init env p).2 = (init env (Process.self p)).2 ∧
  (Process.init env p).1 = (init env (Process.self p)).1.
Proof.
  unfold Process.init, init. destruct (initialized (Process.self p)); [done|].
  by destruct (scan env _) as [[[]|e] w].
Qed.

(** [init] is safe to call again: after a first call, however its scan
    settled, the flag is up and every later call fulfils at once and
    changes nothing; a process that starts without jobs never has more
    than one. *)
Theorem init_once env p :
  initialized (Process.self (Process.init env p).2) = true ∧
  (∀ env', Process.init env' (Process.init env p).2 = (Fulfilled (), (Process.init env p).2)) ∧
  (Process.jobs p = [] → (length (Process.jobs (Process.init env p).2) ≤ 1)%nat).
Proof.
  assert (Hup : initialized (Process.self (Process.init env p).2) = true).
  { unfold Process.init. destruct (initialized (Process.self p)) eqn:Hi; [done|].
    pose proof (scan_initialized env (set_initialized true (Process.self p))) as Hs.
    destruct (scan env _) as [[[]|e] w]; cbn in *; done. }
  split; [done|]. split.
  - intros env'. unfold Process.init at 1. by rewrite Hup.
  - intros Hj. unfold Process.init. destruct (initialized (Process.self p)).
    + cbn. rewrite Hj. cbn. lia.
    + destruct (scan env _) as [[[]|e] w]; cbn; rewrite Hj; cbn; lia.
Qed.

Lemma init_once_witness :
  (length (Process.jobs (Process.init Sample.online Scenario.created).2) ≤ 1)%nat.
Proof.
  apply (proj2 (proj2 (init_once Sample.online Scenario.created))). reflexivity.
Defined.

(** When the first scan fails, [init] rejects with its error before
    reaching [watch]: no job is installed, and since the flag is already
    up no later call of [init] scans or installs one. *)
Theorem init_failed_scan env p e :
  initialized (Process.self p) = false →
  fetch env = Rejected e →
  (Process.init env p).1 = Rejected e ∧
  Process.jobs (Process.init env p).2 = Process.jobs p ∧
  initialized (Process.self (Process.init env p).2) = true ∧
  ∀ env', Process.init env' (Process.init env p).2 = (Fulfilled (), (Process.init env p).2).
Proof.
  intros Hi Hf.
  assert (Hinit : Process.init env p
                  = (Rejected e,
                     {| Process.self := print (Info "Beginning scan...")
                                              (set_initialized true (Process.self p));
                        Process.jobs := Process.jobs p |}))
    by (unfold Process.init; by rewrite Hi, (scan_rejected _ _ _ Hf)).
  rewrite Hinit. cbn [fst snd Process.jobs Process.self].
  split; [done|]. split; [done|]. split; [done|]. intros env'. reflexivity.
Qed.

Lemma init_failed_scan_witness :
  let e := AxiosError "https://api.github.com/repos/quacs/quacs-data/contents/semester_data" in
  let p := (Process.init Sample.offline Scenario.created).2 in
  (Process.init Sample.offline Scenario.created).1 = Rejected e ∧
  Process.jobs p = Process.jobs Scenario.created ∧
  initialized (Process.self p) = true ∧
  ∀ env', Process.init env' p = (Fulfilled (), p).
Proof.
  apply (init_failed_scan Sample.offline Scenario.created); vm_compute; reflexivity.
Defined.

(** When the first scan fulfils, [init] installs exactly one job, the
    half-hourly one, and the watcher is in the state that scan left. *)
Theorem init_installs_timer env p departments :
  initialized (Process.self p) = false →
  fetch env = Fulfilled departments →
  (Process.init env p).1 = Fulfilled () ∧
  Process.jobs (Process.init env p).2 = Process.jobs p ++ ["*/30 * * * *"] ∧
  Process.self (Process.init env p).2 = (scan env (set_initialized true (Process.self p))).2 ∧
  courseData (Process.self (Process.init env p).2) = Some departments.
Proof.
  intros Hi Hf. unfold Process.init. rewrite Hi.
  assert (Hc : courseData (scan env (set_initialized true (Process.self p))).2
               = Some departments).
  { rewrite (scan_fulfilled _ _ _ Hf). cbn [snd]. by rewrite retire_courseData. }
  pose proof (scan_fulfilled env (set_initialized true (Process.self p)) _ Hf) as Hs.
  destruct (scan env _) as [r w]. injection Hs as -> _. cbn in *. done.
Qed.

Lemma init_installs_timer_witness :
  (Process.init Sample.online Scenario.created).1 = Fulfilled () ∧
  Process.jobs (Process.init Sample.online Scenario.created).2
  = Process.jobs Scenario.created ++ ["*/30 * * * *"] ∧
  Process.self (Process.init Sample.online Scenario.created).2
  = (scan Sample.online (set_initialized true (Process.self Scenario.created))).2 ∧
  courseData (Process.self (Process.init Sample.online Scenario.created).2)
  = Some Sample.catalog.
Proof.
  apply (init_installs_timer Sample.online Scenario.created Sample.catalog);
    vm_compute; reflexivity.
Defined.

(** No repeated mail over the life of the process: after an [init] whose
    scan fulfilled, any number of ticks that fetch the same catalogue send
    no further mail and leave the table as [init] left it. *)
Theorem ticks_send_nothing_more env p departments (later : list Env) :
  initialized (Process.self p) = false →
  fetch env = Fulfilled departments →
  Forall (λ env', fetch env' = Fulfilled departments) later →
  let p1 := (Process.init env p).2 in
  let pn := foldl (λ q env', Process.tick env' q) p1 later in
  outbox (Process.self pn) = outbox (Process.self p1) ∧
  watchers (Process.self pn) = watchers (Process.self p1) ∧
  Process.jobs pn = Process.jobs p1.
Proof.
  intros Hi Hf Hlater. cbn zeta.
  assert (Hquiet : matches (watchers (Process.self (Process.init env p).2)) departments = []).
  { unfold Process.init. rewrite Hi.
    pose proof (matches_after_scan env (set_initialized true (Process.self p)) _ Hf) as Hm.
    pose proof (scan_fulfilled env (set_initialized true (Process.self p)) _ Hf) as Hs.
    destruct (scan env _) as [r w]. injection Hs as -> _. exact Hm. }
  revert Hquiet. generalize (Process.init env p).2. intros q Hquiet.
  induction Hlater as [|env' l Hf' _ IH] in q, Hquiet |- *; [done|].
  cbn [foldl].
  destruct (quiet_scan env' (Process.self q) _ Hf' Hquiet) as [Ho Hw].
  destruct (IH (Process.tick env' q)) as (IHo & IHw & IHj).
  { unfold Process.tick. cbn [Process.self]. by rewrite Hw. }
  rewrite IHo, IHw, IHj. unfold Process.tick. cbn [Process.self Process.jobs]. done.
Qed.

Lemma ticks_send_nothing_more_witness :
  let p1 := (Process.init Sample.online Scenario.created).2 in
  let pn := foldl (λ q env', Process.tick env' q) p1 [Sample.bouncing; Sample.online] in
  outbox (Process.self pn) = outbox (Process.self p1) ∧
  watchers (Process.self pn) = watchers (Process.self p1) ∧
  Process.jobs pn = Process.jobs p1.
Proof.
  apply (ticks_send_nothing_more Sample.online Scenario.created Sample.catalog
           [Sample.bouncing; Sample.online]).
  - reflexivity.
  - vm_compute. reflexivity.
  - repeat constructor.
Defined.
